(** * Native-routine registration stub ([src/init.cpp])

    The translation unit declares one static table of [.Call] routine
    descriptors, [CallEntries], and one load hook, [R_init_toth], which hands
    the table to the host interpreter and switches off dynamic symbol lookup
    for the library.

    The hook is embedded as a program over the two host calls it makes; the
    calls are interpreted either by an arbitrary answering host (to read off
    the sequence of calls) or by a model of the host's registration facility
    (to read off the state the host is left in). *)

From Stdlib Require Import ZArith Ascii String.
From stdpp Require Import base option strings list gmap.

Open Scope Z_scope.
Open Scope string_scope.

(* ================================================================== *)
(** ** Data model: the types of [R_ext/Rdynload.h] used by the source *)
(* ================================================================== *)

(** [const char *]: [None] is the null pointer. *)
Definition cstring : Type := option string.

(** [DL_FUNC], the address of a native routine: [None] is the null pointer. *)
Definition DL_FUNC : Type := option positive.

(** [DllInfo *], the library handle: [None] is the null pointer. *)
Definition DllInfo_ptr : Type := option positive.

(** [R_CallMethodDef]: [{name, fun, numArgs}]. *)
Record R_CallMethodDef : Type := CallMethodDef {
  name    : cstring;
  fun_    : DL_FUNC;
  numArgs : Z
}.

(** [R_CMethodDef]: as above, with the optional argument-type vector. *)
Record R_CMethodDef : Type := CMethodDef {
  c_name    : cstring;
  c_fun     : DL_FUNC;
  c_numArgs : Z;
  c_types   : option (list N)
}.

(** The header's two typedefs. *)
Definition R_FortranMethodDef : Type := R_CMethodDef.
Definition R_ExternalMethodDef : Type := R_CallMethodDef.

#[global] Instance R_CallMethodDef_eq_dec : EqDecision R_CallMethodDef.
Proof. solve_decision. Defined.

#[global] Instance R_CMethodDef_eq_dec : EqDecision R_CMethodDef.
Proof. solve_decision. Defined.

(** The all-null record that closes a table: [{NULL, NULL, 0}]. *)
Definition sentinel : R_CallMethodDef :=
  {| name := None; fun_ := None; numArgs := 0 |}.

Definition c_sentinel : R_CMethodDef :=
  {| c_name := None; c_fun := None; c_numArgs := 0; c_types := None |}.

Definition is_sentinel (d : R_CallMethodDef) : bool := bool_decide (d = sentinel).
Definition is_c_sentinel (d : R_CMethodDef) : bool := bool_decide (d = c_sentinel).

(* ================================================================== *)
(** ** The routine table of the source *)
(* ================================================================== *)

(** [static const R_CallMethodDef CallEntries[] = { {NULL, NULL, 0} };] *)
Definition CallEntries : list R_CallMethodDef :=
  [ {| name := None; fun_ := None; numArgs := 0 |} ].

(** The routine descriptors of a table: the records in front of the first
    sentinel.  [None] when the array holds no sentinel, in which case a reader
    of the table runs past its end. *)
Fixpoint entries {D : Type} (null : D -> bool) (table : list D) : option (list D) :=
  match table with
  | [] => None
  | d :: rest =>
      if null d then Some []
      else match entries null rest with
           | Some ds => Some (d :: ds)
           | None => None
           end
  end.

(** A table is well terminated when its last record is the sentinel and no
    record in front of the last one is. *)
Definition terminated (table : list R_CallMethodDef) : Prop :=
  last table = Some sentinel /\
  forall (i : nat) (d : R_CallMethodDef),
    (S i < length table)%nat -> table !! i = Some d -> d <> sentinel.

(* ================================================================== *)
(** ** Native code as a program over host calls *)
(* ================================================================== *)

(** The two entry points of the host the source calls, indexed by the type of
    what they return.  [R_registerRoutines] takes the library handle and four
    table pointers (the [.C], [.Call], [.Fortran] and [.External] routines, in
    this order) and returns an [int]; [R_useDynamicSymbols] takes the handle
    and an [Rboolean] and returns the previous [Rboolean].  A table argument
    is a pointer: [None] is [NULL]. *)
Inductive HostCall : Type -> Type :=
| R_registerRoutines
    (info : DllInfo_ptr)
    (croutines : option (list R_CMethodDef))
    (callRoutines : option (list R_CallMethodDef))
    (fortranRoutines : option (list R_FortranMethodDef))
    (externalRoutines : option (list R_ExternalMethodDef)) : HostCall Z
| R_useDynamicSymbols (info : DllInfo_ptr) (value : bool) : HostCall bool.

(** A native function body: it returns, or calls the host and goes on with
    what the host returned. *)
Inductive Native (A : Type) : Type :=
| Ret (a : A)
| Invoke (X : Type) (c : HostCall X) (k : X -> Native A).

Arguments Ret {A} a.
Arguments Invoke {A X} c k.

Fixpoint native_bind {A B : Type} (f : A -> Native B) (p : Native A) : Native B :=
  match p with
  | Ret a => f a
  | Invoke c k => Invoke c (fun x => native_bind f (k x))
  end.

#[global] Instance native_ret : MRet Native := @Ret.
#[global] Instance native_mbind : MBind Native := @native_bind.

(** A call statement. *)
Definition call {X : Type} (c : HostCall X) : Native X := Invoke c Ret.

(* ================================================================== *)
(** ** The load hook of the source *)
(* ================================================================== *)

(** [void R_init_toth(DllInfo *dll) {
       R_registerRoutines(dll, NULL, CallEntries, NULL, NULL);
       R_useDynamicSymbols(dll, FALSE);
     }]
    Both results are discarded. *)
Definition R_init_toth (dll : DllInfo_ptr) : Native unit :=
  call (R_registerRoutines dll None (Some CallEntries) None None) ;;
  call (R_useDynamicSymbols dll false) ;;
  mret tt.

(** The same body over an arbitrary [.Call] table, to speak about the hook
    "regardless of table contents"; [R_init_toth] is its instance at
    [CallEntries]. *)
Definition init_with (table : list R_CallMethodDef) (dll : DllInfo_ptr) : Native unit :=
  call (R_registerRoutines dll None (Some table) None None) ;;
  call (R_useDynamicSymbols dll false) ;;
  mret tt.

(* ================================================================== *)
(** ** The calls a program issues *)
(* ================================================================== *)

(** One argument of a host call, as passed. *)
Inductive arg : Type :=
| ArgDll (p : DllInfo_ptr)
| ArgNull
| ArgCTable (t : list R_CMethodDef)
| ArgCallTable (t : list R_CallMethodDef)
| ArgBool (b : bool).

Definition arg_c (t : option (list R_CMethodDef)) : arg :=
  match t with Some l => ArgCTable l | None => ArgNull end.
Definition arg_call (t : option (list R_CallMethodDef)) : arg :=
  match t with Some l => ArgCallTable l | None => ArgNull end.

(** Which host function a call goes to. *)
Inductive callee : Type := fn_registerRoutines | fn_useDynamicSymbols.

#[global] Instance callee_eq_dec : EqDecision callee.
Proof. solve_decision. Defined.

(** A logged call: the host function and the argument list, in order. *)
Record issued : Type := Issued { target : callee; args : list arg }.

Definition log {X : Type} (c : HostCall X) : issued :=
  match c with
  | R_registerRoutines info cr ca fo ex =>
      Issued fn_registerRoutines [ArgDll info; arg_c cr; arg_call ca; arg_c fo; arg_call ex]
  | R_useDynamicSymbols info value =>
      Issued fn_useDynamicSymbols [ArgDll info; ArgBool value]
  end.

(** The four routine kinds of the registration call, and where the table of
    each kind sits in its argument list (the handle is argument 0). *)
Inductive routine_kind : Type := dotC | dotCall | dotFortran | dotExternal.

Definition table_position (k : routine_kind) : nat :=
  match k with
  | dotC => 1
  | dotCall => 2
  | dotFortran => 3
  | dotExternal => 4
  end.

Definition table_arg (k : routine_kind) (r : issued) : option arg :=
  args r !! table_position k.

(** A host that returns from every call: its state, and what each call
    answers and does to the state. *)
Record answering : Type := Answering {
  host_state : Type;
  answer : forall X : Type, HostCall X -> host_state -> X * host_state
}.

(** The calls [p] issues against host [H] started in state [s]. *)
Fixpoint trace {A : Type} (H : answering) (p : Native A) (s : host_state H) : list issued :=
  match p with
  | Ret _ => []
  | Invoke c k =>
      let '(x, s') := answer H _ c s in
      log c :: trace H (k x) s'
  end.

(* ================================================================== *)
(** ** The host side of the interface *)
(* ================================================================== *)

(** Modelled from the spec: what the host keeps for one loaded library, which
    is state of the host interpreter and not of this repository: its
    native-symbol tables, one per routine kind, its dynamic-lookup policy
    flag, and the names in the library's linker symbol table. *)
Record DllInfo : Type := mkDllInfo {
  CSymbols          : list R_CMethodDef;
  CallSymbols       : list R_CallMethodDef;
  FortranSymbols    : list R_FortranMethodDef;
  ExternalSymbols   : list R_ExternalMethodDef;
  useDynamicSymbols : bool;
  dl_symbols        : list string
}.

(** How a host call can end badly: the handle does not denote a loaded
    library, or a table has no sentinel and the host reads past its end. *)
Inductive failure : Type := invalid_DllInfo | table_overrun.

Inductive outcome (A : Type) : Type :=
| Done (a : A)
| Failed (f : failure).

Arguments Done {A} a.
Arguments Failed {A} f.

#[global] Instance outcome_ret : MRet outcome := @Done.
#[global] Instance outcome_bind : MBind outcome := fun A B f o =>
  match o with
  | Done a => f a
  | Failed e => Failed e
  end.

(** Modelled from the spec: a table handed to the host's registration
    replaces the library's table of that kind by its descriptors, the host
    finding the table's length by its sentinel; a null pointer leaves the
    table of that kind as it is. *)
Definition install {D : Type} (null : D -> bool) (table : option (list D)) (old : list D)
  : outcome (list D) :=
  match table with
  | None => Done old
  | Some t =>
      match entries null t with
      | Some ds => Done ds
      | None => Failed table_overrun
      end
  end.

(** The library a handle denotes. *)
Definition deref (info : DllInfo_ptr) (s : gmap positive DllInfo) : outcome (positive * DllInfo) :=
  match info with
  | None => Failed invalid_DllInfo
  | Some h =>
      match s !! h with
      | Some d => Done (h, d)
      | None => Failed invalid_DllInfo
      end
  end.

(** Running a native function body against a host whose calls may fail: the
    body has no failure of its own, it stops at the first call that fails. *)
Fixpoint exec {S A : Type}
    (hc : forall X : Type, HostCall X -> S -> outcome (X * S))
    (p : Native A) (s : S) : outcome (A * S) :=
  match p with
  | Ret a => Done (a, s)
  | Invoke c k =>
      match hc _ c s with
      | Done (x, s') => exec hc (k x) s'
      | Failed e => Failed e
      end
  end.

Section Host.

(** What registration does to the library's lookup flag.  The specification
    leaves it open (the identity); the reference host puts the flag back to
    its default, on. *)
Variable registration_policy : bool -> bool.

(** Modelled from the spec: the host's registration facility, which is part
    of the host interpreter and not of this repository.  It associates the
    descriptors of every table it is given with the library and answers a
    status. *)
Definition host_registerRoutines
    (info : DllInfo_ptr)
    (croutines : option (list R_CMethodDef))
    (callRoutines : option (list R_CallMethodDef))
    (fortranRoutines : option (list R_FortranMethodDef))
    (externalRoutines : option (list R_ExternalMethodDef))
    (s : gmap positive DllInfo) : outcome (Z * gmap positive DllInfo) :=
  '(h, d) ← deref info s;
  cs ← install is_c_sentinel croutines (CSymbols d);
  ks ← install is_sentinel callRoutines (CallSymbols d);
  fs ← install is_c_sentinel fortranRoutines (FortranSymbols d);
  es ← install is_sentinel externalRoutines (ExternalSymbols d);
  mret (1, <[h := {| CSymbols := cs;
                     CallSymbols := ks;
                     FortranSymbols := fs;
                     ExternalSymbols := es;
                     useDynamicSymbols := registration_policy (useDynamicSymbols d);
                     dl_symbols := dl_symbols d |}]> s).

(** Modelled from the spec: the host call that sets the library's "allow
    dynamic symbol lookup" flag; it answers the flag's previous value. *)
Definition host_useDynamicSymbols
    (info : DllInfo_ptr) (value : bool)
    (s : gmap positive DllInfo) : outcome (bool * gmap positive DllInfo) :=
  '(h, d) ← deref info s;
  mret (useDynamicSymbols d,
        <[h := {| CSymbols := CSymbols d;
                  CallSymbols := CallSymbols d;
                  FortranSymbols := FortranSymbols d;
                  ExternalSymbols := ExternalSymbols d;
                  useDynamicSymbols := value;
                  dl_symbols := dl_symbols d |}]> s).

Definition host_call {X : Type} (c : HostCall X) (s : gmap positive DllInfo)
  : outcome (X * gmap positive DllInfo) :=
  match c in HostCall T return outcome (T * gmap positive DllInfo) with
  | R_registerRoutines info cr ca fo ex => host_registerRoutines info cr ca fo ex s
  | R_useDynamicSymbols info value => host_useDynamicSymbols info value s
  end.

(** Running a native function body against the modelled host. *)
Definition run {A : Type} (p : Native A) (s : gmap positive DllInfo)
  : outcome (A * gmap positive DllInfo) :=
  exec (@host_call) p s.

End Host.

(** *** Resolving a routine by name *)

Inductive resolution : Type :=
| not_found
| registered (f : DL_FUNC) (nargs : Z)
| linked (symbol : string).

Fixpoint find_routine {D : Type} (nm : D -> cstring) (res : D -> resolution)
    (n : string) (table : list D) : option resolution :=
  match table with
  | [] => None
  | d :: rest =>
      if bool_decide (nm d = Some n) then Some (res d)
      else find_routine nm res n rest
  end.

(** Modelled from the spec: lookup in the library's registered routines. *)
Definition registered_lookup (d : DllInfo) (n : string) : option resolution :=
  let call_res (r : R_CallMethodDef) := registered (fun_ r) (numArgs r) in
  let c_res (r : R_CMethodDef) := registered (c_fun r) (c_numArgs r) in
  match find_routine name call_res n (CallSymbols d) with
  | Some r => Some r
  | None =>
  match find_routine c_name c_res n (CSymbols d) with
  | Some r => Some r
  | None =>
  match find_routine c_name c_res n (FortranSymbols d) with
  | Some r => Some r
  | None => find_routine name call_res n (ExternalSymbols d)
  end end end.

(** Modelled from the spec: the host's dynamic path, which resolves a name
    against the library's linker symbol table when the flag allows it. *)
Definition dynamic_lookup (d : DllInfo) (n : string) : resolution :=
  if useDynamicSymbols d then
    if bool_decide (n ∈ dl_symbols d) then linked n else not_found
  else not_found.

(** Modelled from the spec: resolving a name for a call from interpreted
    code: the registered routines first, the dynamic path as the fallback. *)
Definition R_FindSymbol (d : DllInfo) (n : string) : resolution :=
  match registered_lookup d n with
  | Some r => r
  | None => dynamic_lookup d n
  end.

(** The names of the routines registered for a library. *)
Definition registered_names (d : DllInfo) : list cstring :=
  (name <$> CallSymbols d) ++ (c_name <$> CSymbols d) ++
  (c_name <$> FortranSymbols d) ++ (name <$> ExternalSymbols d).

(** A routine is callable by name when its name resolves. *)
Definition callable (d : DllInfo) (n : string) : Prop :=
  R_FindSymbol d n <> not_found.

(* ================================================================== *)
(** ** The translation unit and its load *)
(* ================================================================== *)

Inductive ctype : Type := ty_void | ty_DllInfo_ptr | ty_CallMethodDef_array.

Inductive linkage : Type := internal | external.

#[global] Instance ctype_eq_dec : EqDecision ctype.
Proof. solve_decision. Defined.

#[global] Instance linkage_eq_dec : EqDecision linkage.
Proof. solve_decision. Defined.

(** What a name of the translation unit is defined as. *)
Inductive definition : Type :=
| data (ty : ctype) (value : list R_CallMethodDef)
| function (params : list ctype) (result : ctype) (body : DllInfo_ptr -> Native unit).

Record symbol : Type := mkSymbol {
  sym_name    : string;
  sym_linkage : linkage;
  sym_def     : definition
}.

(** [src/init.cpp]: the table is [static] (internal linkage); the hook is a
    plain function inside [extern "C"], so it is exported under its own,
    unmangled name. *)
Definition init_cpp : list symbol :=
  [ {| sym_name := "CallEntries"; sym_linkage := internal;
       sym_def := data ty_CallMethodDef_array CallEntries |};
    {| sym_name := "R_init_toth"; sym_linkage := external;
       sym_def := function [ty_DllInfo_ptr] ty_void R_init_toth |} ].

Definition exported (tu : list symbol) : list symbol :=
  filter (fun y => sym_linkage y = external) tu.


(** Modelled from the spec: the fixed, host-mandated name and signature of the
    load hook.  The spec does not spell the name; the host's extension ABI
    forms it from the library's name [lib] as [R_init_lib], every dot of [lib]
    written as an underscore, with signature [(DllInfo pointer) -> void]. *)
Fixpoint undot (lib : string) : string :=
  match lib with
  | EmptyString => EmptyString
  | String c rest =>
      String (if bool_decide (c = "."%char) then "_"%char else c) (undot rest)
  end.

Definition load_hook_name (lib : string) : string := "R_init_" +:+ undot lib.

Definition load_hook_signature : list ctype * ctype := ([ty_DllInfo_ptr], ty_void).

(** The exported symbols that are load hooks by their form. *)
Definition load_hooks (tu : list symbol) : list symbol :=
  filter (fun y => String.prefix "R_init_" (sym_name y) = true) (exported tu).

(** The exported function the host finds under a name, if any. *)
Fixpoint find_hook (tu : list symbol) (n : string) : option (DllInfo_ptr -> Native unit) :=
  match tu with
  | [] => None
  | y :: rest =>
      if bool_decide (sym_name y = n /\ sym_linkage y = external) then
        match sym_def y with
        | function ps r body =>
            if bool_decide ((ps, r) = load_hook_signature) then Some body else None
        | data _ _ => None
        end
      else find_hook rest n
  end.

(** Modelled from the spec: the host's record of a library that has just been
    mapped (the "unregistered" state): nothing registered, dynamic lookup
    on. *)
Definition mapped (tu : list symbol) : DllInfo :=
  {| CSymbols := []; CallSymbols := []; FortranSymbols := []; ExternalSymbols := [];
     useDynamicSymbols := true;
     dl_symbols := sym_name <$> exported tu |}.

(** What a load did: the hooks the host invoked, in order, and the host state
    it ended in. *)
Record loaded : Type := mkLoaded {
  invoked : list string;
  after   : outcome (gmap positive DllInfo)
}.

(** Modelled from the spec: loading the library named [lib] under handle [h]:
    the host maps the image, looks for the mandated hook and, when it finds
    it, invokes it with the handle. *)
Definition dyn_load (registration_policy : bool -> bool)
    (lib : string) (tu : list symbol) (h : positive) (s : gmap positive DllInfo) : loaded :=
  let s0 := <[h := mapped tu]> s in
  match find_hook tu (load_hook_name lib) with
  | Some body =>
      {| invoked := [load_hook_name lib];
         after := match run registration_policy (body (Some h)) s0 with
                  | Done (_, s') => Done s'
                  | Failed e => Failed e
                  end |}
  | None => {| invoked := []; after := Done s0 |}
  end.

(** The reference host puts the lookup flag back on when routines are
    registered. *)
Definition reference_policy : bool -> bool := fun _ => true.

(** An answering host built from the model, for reading off calls: a failed
    call leaves the state as it is and answers a default. *)
Definition model_host (registration_policy : bool -> bool) : answering :=
  {| host_state := gmap positive DllInfo;
     answer := fun X (c : HostCall X) s =>
       match host_call registration_policy c s with
       | Done r => r
       | Failed _ =>
           (match c in HostCall T return T with
            | R_registerRoutines _ _ _ _ _ => 0
            | R_useDynamicSymbols _ _ => false
            end, s)
       end |}.

(** A library record with routines of every kind registered and dynamic
    lookup on, for examples. *)
Definition busy : DllInfo :=
  {| CSymbols := [ {| c_name := Some "c_sum"; c_fun := Some 7%positive;
                      c_numArgs := 2; c_types := None |} ];
     CallSymbols := [ {| name := Some "old_call"; fun_ := Some 9%positive; numArgs := 1 |} ];
     FortranSymbols := [];
     ExternalSymbols := [];
     useDynamicSymbols := true;
     dl_symbols := ["R_init_toth"; "helper"] |}.

(** The record of a library after a registration of the [.Call] routines
    [ds] alone, followed by switching dynamic lookup off. *)
Definition settled (d : DllInfo) (ds : list R_CallMethodDef) : DllInfo :=
  {| CSymbols := CSymbols d;
     CallSymbols := ds;
     FortranSymbols := FortranSymbols d;
     ExternalSymbols := ExternalSymbols d;
     useDynamicSymbols := false;
     dl_symbols := dl_symbols d |}.

(** Running a body against a host whose calls may fail, keeping the calls
    issued: a call that fails is logged and is the last one. *)
Fixpoint exec_log {S A : Type}
    (hc : forall X : Type, HostCall X -> S -> outcome (X * S))
    (p : Native A) (s : S) : list issued * outcome (A * S) :=
  match p with
  | Ret a => ([], Done (a, s))
  | Invoke c k =>
      match hc _ c s with
      | Done (x, s') =>
          let '(l, r) := exec_log hc (k x) s' in (log c :: l, r)
      | Failed e => ([log c], Failed e)
      end
  end.

(** A host, for examples, that answers status 0 to every registration and
    registers nothing; its state is the list of the values the lookup flag
    was set to, latest first. *)
Definition refusing_host (X : Type) (c : HostCall X) (s : list bool)
  : outcome (X * list bool) :=
  match c in HostCall T return outcome (T * list bool) with
  | R_registerRoutines _ _ _ _ _ => Done (0, s)
  | R_useDynamicSymbols _ value => Done (true, value :: s)
  end.




(* ================================================================== *)
(** * Properties *)
(* ================================================================== *)

(** ** The routine table *)

Lemma CallEntries_is_sentinel_only : CallEntries = [sentinel].
Proof. reflexivity. Qed.

Lemma entries_CallEntries : entries is_sentinel CallEntries = Some [].
Proof. reflexivity. Qed.

(** The termination predicate tells tables apart: it rejects the empty array
    and a sentinel in front of the last record. *)
Example empty_array_not_terminated : ~ terminated [].
Proof. intros [Hlast _]. discriminate Hlast. Qed.

Example early_sentinel_not_terminated : ~ terminated [sentinel; sentinel].
Proof.
  intros [_ Hfront]. apply (Hfront 0%nat sentinel); [simpl; lia | reflexivity | reflexivity].
Qed.

(** C3: in the routine table the last record is the all-null sentinel, and no
    all-null record stands at a position before the last; the first sentinel
    is found at the last index. *)
Theorem CallEntries_terminated :
  terminated CallEntries /\
  list_find (fun d => d = sentinel) CallEntries = Some (pred (length CallEntries), sentinel).
Proof.
  split; [split |].
  - reflexivity.
  - intros i d Hi _. simpl in Hi. lia.
  - reflexivity.
Qed.

(** ** The calls the hook issues *)

(** Whatever the host answers, the hook issues the registration call and then
    the lookup-policy call, with these arguments. *)
Lemma trace_init_with (H : answering) (table : list R_CallMethodDef)
    (dll : DllInfo_ptr) (s : host_state H) :
  trace H (init_with table dll) s =
    [ Issued fn_registerRoutines
        [ArgDll dll; ArgNull; ArgCallTable table; ArgNull; ArgNull];
      Issued fn_useDynamicSymbols [ArgDll dll; ArgBool false] ].
Proof.
  unfold init_with, call. simpl.
  destruct (answer H Z _ s) as [status s1]. simpl.
  destruct (answer H bool _ s1) as [old s2]. reflexivity.
Qed.

Lemma R_init_toth_init_with : R_init_toth = init_with CallEntries.
Proof. reflexivity. Qed.

Lemma trace_R_init_toth (H : answering) (dll : DllInfo_ptr) (s : host_state H) :
  trace H (R_init_toth dll) s =
    [ Issued fn_registerRoutines
        [ArgDll dll; ArgNull; ArgCallTable CallEntries; ArgNull; ArgNull];
      Issued fn_useDynamicSymbols [ArgDll dll; ArgBool false] ].
Proof. rewrite R_init_toth_init_with. apply trace_init_with. Qed.

(** Positions in a two-call trace. *)
Lemma lookup_pair {A : Type} (a b x : A) (i : nat) :
  [a; b] !! i = Some x -> (i = 0%nat /\ x = a) \/ (i = 1%nat /\ x = b).
Proof.
  destruct i as [| [| i]]; simpl; intros Hx.
  - left. split; congruence.
  - right. split; congruence.
  - discriminate Hx.
Qed.

(** C4: for every library handle and every host, the hook first passes the
    routine table to the registration facility and only then tells the host to
    disallow dynamic lookup: a registration call carrying the table sits at an
    earlier position of the trace than the lookup-policy call, and every
    registration call precedes every lookup-policy call. *)
Theorem registration_precedes_lookup_policy
    (H : answering) (dll : DllInfo_ptr) (s : host_state H) :
  (exists (i j : nat) (r p : issued),
      trace H (R_init_toth dll) s !! i = Some r /\
      trace H (R_init_toth dll) s !! j = Some p /\
      target r = fn_registerRoutines /\
      ArgCallTable CallEntries ∈ args r /\
      target p = fn_useDynamicSymbols /\
      args p = [ArgDll dll; ArgBool false] /\
      (i < j)%nat) /\
  (forall (i j : nat) (r p : issued),
      trace H (R_init_toth dll) s !! i = Some r ->
      trace H (R_init_toth dll) s !! j = Some p ->
      target r = fn_registerRoutines ->
      target p = fn_useDynamicSymbols ->
      (i < j)%nat).
Proof.
  rewrite trace_R_init_toth. split.
  - exists 0%nat, 1%nat. do 2 eexists.
    repeat split; try reflexivity; [| lia].
    simpl. set_solver.
  - intros i j r p Hr Hp Tr Tp.
    apply lookup_pair in Hr as [[-> ->] | [-> ->]];
      apply lookup_pair in Hp as [[-> ->] | [-> ->]];
      simpl in *; try discriminate; lia.
Qed.

(** C6, as stated, fails: the registration call of the hook does not have the
    four-argument list (handle, table, null, null). *)
Lemma registration_args_are_not_handle_table_null_null :
  args <$> head (trace (model_host reference_policy) (R_init_toth (Some 1%positive)) ∅)
  <> Some [ArgDll (Some 1%positive); ArgCallTable CallEntries; ArgNull; ArgNull].
Proof. rewrite trace_R_init_toth. simpl. intros Heq. discriminate Heq. Qed.

(** C6, amended: the hook calls the host's registration function once, with
    five arguments: the library handle, null, the routine table, null, null
    (the table is the third argument; every other table argument is null). *)
Theorem registration_call_arguments
    (H : answering) (dll : DllInfo_ptr) (s : host_state H) :
  exists (r : issued) (rest : list issued),
    trace H (R_init_toth dll) s = r :: rest /\
    target r = fn_registerRoutines /\
    args r = [ArgDll dll; ArgNull; ArgCallTable CallEntries; ArgNull; ArgNull] /\
    Forall (fun c => target c <> fn_registerRoutines) rest.
Proof.
  rewrite trace_R_init_toth. do 2 eexists.
  repeat split; try reflexivity.
  repeat constructor. discriminate.
Qed.

(** C9: of the four routine-kind tables of the registration call, the hook
    supplies only the [.Call] one, which is the sentinel-only table with no
    routine in it; the [.C], [.Fortran] and [.External] tables are null. *)
Theorem only_dotCall_table_supplied
    (H : answering) (dll : DllInfo_ptr) (s : host_state H)
    (r : issued) (k : routine_kind)
    (Hin : r ∈ trace H (R_init_toth dll) s)
    (Hreg : target r = fn_registerRoutines) :
  table_arg k r =
    Some (match k with
          | dotCall => ArgCallTable [sentinel]
          | dotC | dotFortran | dotExternal => ArgNull
          end) /\
  entries is_sentinel [sentinel] = Some [].
Proof.
  rewrite trace_R_init_toth in Hin.
  apply elem_of_cons in Hin as [-> | Hin].
  - split; [destruct k |]; reflexivity.
  - apply list_elem_of_singleton in Hin. subst r. discriminate Hreg.
Qed.

Lemma only_dotCall_table_supplied_witness :
  table_arg dotCall
    (Issued fn_registerRoutines
       [ArgDll (Some 1%positive); ArgNull; ArgCallTable CallEntries; ArgNull; ArgNull])
  = Some (ArgCallTable [sentinel]) /\
  entries is_sentinel [sentinel] = Some [].
Proof.
  apply (only_dotCall_table_supplied (model_host reference_policy) (Some 1%positive) ∅).
  - rewrite trace_R_init_toth. apply list_elem_of_here.
  - reflexivity.
Defined.

(** C10: the hook is deterministic: against any two hosts in any two states,
    invoked with the same handle it issues the same two calls with the same
    arguments in the same order, and the handle it received is the first
    argument of both and the only handle passed; nothing the host answers or
    holds in its state changes this. *)
Theorem hook_deterministic
    (H1 H2 : answering) (dll : DllInfo_ptr) (s1 : host_state H1) (s2 : host_state H2) :
  trace H1 (R_init_toth dll) s1 = trace H2 (R_init_toth dll) s2 /\
  (target <$> trace H1 (R_init_toth dll) s1) = [fn_registerRoutines; fn_useDynamicSymbols] /\
  Forall (fun c => head (args c) = Some (ArgDll dll)) (trace H1 (R_init_toth dll) s1) /\
  Forall (fun c => forall p, ArgDll p ∈ args c -> p = dll) (trace H1 (R_init_toth dll) s1).
Proof.
  rewrite !trace_R_init_toth. repeat split.
  - repeat constructor.
  - repeat constructor; intros p Hp; simpl in Hp;
      repeat (apply elem_of_cons in Hp as [Hp | Hp]; [congruence |]);
      by apply elem_of_nil in Hp.
Qed.

(** ** The state the hook leaves the host in *)

Lemma entries_app_sentinel (rs : list R_CallMethodDef) :
  is_Some (entries is_sentinel (rs ++ [sentinel])).
Proof.
  induction rs as [| r rs IH]; simpl.
  - exists []. reflexivity.
  - destruct (is_sentinel r); [eauto |].
    destruct IH as [ds ->]. eauto.
Qed.

(** On a handle that denotes a loaded library, and a table with a sentinel,
    the body runs to its end and leaves the library [settled]. *)
Lemma run_init_with (policy : bool -> bool) (s : gmap positive DllInfo)
    (h : positive) (d : DllInfo) (table ds : list R_CallMethodDef) :
  s !! h = Some d ->
  entries is_sentinel table = Some ds ->
  run policy (init_with table (Some h)) s = Done (tt, <[h := settled d ds]> s).
Proof.
  intros Hs Ht.
  unfold run, init_with, call. simpl.
  unfold host_registerRoutines, deref. rewrite Hs. simpl. rewrite Ht. simpl.
  unfold host_useDynamicSymbols, deref. rewrite lookup_insert_eq. simpl.
  rewrite insert_insert_eq. reflexivity.
Qed.

Lemma run_R_init_toth (policy : bool -> bool) (s : gmap positive DllInfo)
    (h : positive) (d : DllInfo) :
  s !! h = Some d ->
  run policy (R_init_toth (Some h)) s = Done (tt, <[h := settled d []]> s).
Proof.
  intros Hs. rewrite R_init_toth_init_with.
  apply run_init_with; [exact Hs | apply entries_CallEntries].
Qed.

Lemma find_routine_absent {D : Type} (nm : D -> cstring) (res : D -> resolution)
    (n : string) (table : list D) :
  Some n ∉ nm <$> table -> find_routine nm res n table = None.
Proof.
  induction table as [| d table IH]; simpl; intros Hn; [reflexivity |].
  apply not_elem_of_cons in Hn as [Hd Hrest].
  rewrite bool_decide_eq_false_2 by congruence. auto.
Qed.

Lemma registered_lookup_absent (d : DllInfo) (n : string) :
  Some n ∉ registered_names d -> registered_lookup d n = None.
Proof.
  unfold registered_names, registered_lookup. intros Hn.
  rewrite !not_elem_of_app in Hn. destruct Hn as (Hk & Hc & Hf & He).
  rewrite !find_routine_absent by assumption. reflexivity.
Qed.

Lemma dynamic_lookup_off (d : DllInfo) (n : string) :
  useDynamicSymbols d = false -> dynamic_lookup d n = not_found.
Proof. unfold dynamic_lookup. intros ->. reflexivity. Qed.

(** C5: after the hook has run on a loaded library, the library's "allow
    dynamic symbol lookup" flag is false (whatever it was and whatever
    registration did to it), so a name that is not in the registered tables does
    not resolve, and the dynamic path resolves no name at all; the [.Call]
    table registered is empty. *)
Theorem dynamic_lookup_disabled (policy : bool -> bool) (s : gmap positive DllInfo)
    (h : positive) (d : DllInfo) (Hvalid : s !! h = Some d) :
  exists (s' : gmap positive DllInfo) (d' : DllInfo),
    run policy (R_init_toth (Some h)) s = Done (tt, s') /\
    s' !! h = Some d' /\
    useDynamicSymbols d' = false /\
    (forall n : string, Some n ∉ registered_names d' -> R_FindSymbol d' n = not_found) /\
    (forall n : string, dynamic_lookup d' n = not_found) /\
    CallSymbols d' = [].
Proof.
  exists (<[h := settled d []]> s), (settled d []).
  split; [by apply run_R_init_toth |].
  split; [apply lookup_insert_eq |].
  split; [reflexivity |].
  split; [| split; [| reflexivity]].
  - intros n Hn. unfold R_FindSymbol.
    rewrite registered_lookup_absent by exact Hn. by apply dynamic_lookup_off.
  - intros n. by apply dynamic_lookup_off.
Qed.

Lemma dynamic_lookup_disabled_witness :
  exists (s' : gmap positive DllInfo) (d' : DllInfo),
    run reference_policy (R_init_toth (Some 1%positive)) {[1%positive := busy]}
      = Done (tt, s') /\
    s' !! 1%positive = Some d' /\
    useDynamicSymbols d' = false /\
    (forall n : string, Some n ∉ registered_names d' -> R_FindSymbol d' n = not_found) /\
    (forall n : string, dynamic_lookup d' n = not_found) /\
    CallSymbols d' = [].
Proof.
  apply (dynamic_lookup_disabled reference_policy {[1%positive := busy]} 1%positive busy).
  reflexivity.
Defined.

(** Before the hook the dynamic path does resolve linker symbols, and it no
    longer does afterwards. *)
Example dynamic_lookup_before_and_after :
  R_FindSymbol busy "helper" = linked "helper" /\
  R_FindSymbol (settled busy []) "helper" = not_found.
Proof. split; reflexivity. Qed.

(** C1: the routine table of this build holds no routine descriptor, so after
    the hook has run on a library for which nothing else is registered (as
    when it has just been loaded), no routine is registered and no name is
    callable from the host. *)
Theorem no_routine_callable (policy : bool -> bool) (s : gmap positive DllInfo)
    (h : positive) (d : DllInfo)
    (Hvalid : s !! h = Some d)
    (HC : CSymbols d = []) (HF : FortranSymbols d = []) (HE : ExternalSymbols d = []) :
  entries is_sentinel CallEntries = Some [] /\
  exists (s' : gmap positive DllInfo) (d' : DllInfo),
    run policy (R_init_toth (Some h)) s = Done (tt, s') /\
    s' !! h = Some d' /\
    registered_names d' = [] /\
    (forall n : string, ~ callable d' n).
Proof.
  split; [reflexivity |].
  exists (<[h := settled d []]> s), (settled d []).
  split; [by apply run_R_init_toth |].
  split; [apply lookup_insert_eq |].
  assert (Hnames : registered_names (settled d []) = []).
  { unfold registered_names, settled. simpl. rewrite HC, HF, HE. reflexivity. }
  split; [exact Hnames |].
  intros n Hcall. apply Hcall. unfold R_FindSymbol.
  rewrite registered_lookup_absent.
  - by apply dynamic_lookup_off.
  - rewrite Hnames. apply not_elem_of_nil.
Qed.

Lemma no_routine_callable_witness :
  entries is_sentinel CallEntries = Some [] /\
  exists (s' : gmap positive DllInfo) (d' : DllInfo),
    run reference_policy (R_init_toth (Some 1%positive)) {[1%positive := mapped init_cpp]}
      = Done (tt, s') /\
    s' !! 1%positive = Some d' /\
    registered_names d' = [] /\
    (forall n : string, ~ callable d' n).
Proof.
  apply (no_routine_callable reference_policy {[1%positive := mapped init_cpp]}
           1%positive (mapped init_cpp)); reflexivity.
Defined.

(** Routines of another kind registered earlier stay callable: the null table
    arguments leave them alone. *)
Example earlier_registration_survives :
  R_FindSymbol (settled busy []) "c_sum" = registered (Some 7%positive) 2.
Proof. reflexivity. Qed.

(** ** Failures *)

(** The body has no failure of its own: when a run fails, one of its two host
    calls has failed, with that very failure. *)
Lemma exec_failure_is_host_failure {S : Type}
    (hc : forall X : Type, HostCall X -> S -> outcome (X * S))
    (table : list R_CallMethodDef) (dll : DllInfo_ptr) (s : S) (e : failure) :
  exec hc (init_with table dll) s = Failed e ->
  hc Z (R_registerRoutines dll None (Some table) None None) s = Failed e \/
  exists (status : Z) (s1 : S),
    hc Z (R_registerRoutines dll None (Some table) None None) s = Done (status, s1) /\
    hc bool (R_useDynamicSymbols dll false) s1 = Failed e.
Proof.
  unfold init_with, call. simpl.
  destruct (hc Z _ s) as [[status s1] | e1] eqn:Hreg; simpl.
  - destruct (hc bool _ s1) as [[old s2] | e2] eqn:Hdyn; simpl.
    + discriminate.
    + intros He. injection He as ->. right. eauto.
  - intros He. injection He as ->. by left.
Qed.

(** The host does raise on a handle that denotes no library, and the run ends
    there. *)
Example null_handle_rejected_by_host :
  run reference_policy (R_init_toth None) ∅ = Failed invalid_DllInfo.
Proof. reflexivity. Qed.

(** C7: on a handle that denotes a loaded library the hook runs to its end
    without any failure, whatever routines the table holds in front of its
    sentinel (none, for the table of this build); and whenever a run of the
    body does fail, against any host, the failure is that of a host call, not
    one of the body. *)
Theorem hook_raises_no_error (policy : bool -> bool) (s : gmap positive DllInfo)
    (h : positive) (d : DllInfo) (rs : list R_CallMethodDef)
    (Hvalid : s !! h = Some d) :
  (exists s' : gmap positive DllInfo,
      run policy (init_with (rs ++ [sentinel]) (Some h)) s = Done (tt, s')) /\
  (exists s' : gmap positive DllInfo,
      run policy (R_init_toth (Some h)) s = Done (tt, s')) /\
  (forall (S : Type) (hc : forall X : Type, HostCall X -> S -> outcome (X * S))
          (table : list R_CallMethodDef) (dll : DllInfo_ptr) (st : S) (e : failure),
      exec hc (init_with table dll) st = Failed e ->
      hc Z (R_registerRoutines dll None (Some table) None None) st = Failed e \/
      exists (status : Z) (s1 : S),
        hc Z (R_registerRoutines dll None (Some table) None None) st = Done (status, s1) /\
        hc bool (R_useDynamicSymbols dll false) s1 = Failed e).
Proof.
  split; [| split].
  - destruct (entries_app_sentinel rs) as [ds Hds].
    eexists. by apply (run_init_with policy s h d _ ds).
  - eexists. by apply run_R_init_toth.
  - intros S hc table dll st e. apply exec_failure_is_host_failure.
Qed.

Lemma hook_raises_no_error_witness :
  (exists s' : gmap positive DllInfo,
      run reference_policy
        (init_with ([ {| name := Some "f"; fun_ := Some 5%positive; numArgs := 2 |} ]
                    ++ [sentinel]) (Some 1%positive))
        {[1%positive := busy]} = Done (tt, s')) /\
  (exists s' : gmap positive DllInfo,
      run reference_policy (R_init_toth (Some 1%positive)) {[1%positive := busy]}
        = Done (tt, s')).
Proof.
  destruct (hook_raises_no_error reference_policy {[1%positive := busy]} 1%positive busy
              [ {| name := Some "f"; fun_ := Some 5%positive; numArgs := 2 |} ])
    as (Hany & Hthis & _).
  - reflexivity.
  - split; [exact Hany | exact Hthis].
Defined.

(** ** Loading the translation unit *)



(** Under any other library name the host looks for another symbol, finds
    none, and invokes nothing: the library stays as mapped. *)
Lemma dyn_load_other_name (policy : bool -> bool) (lib : string) (h : positive)
    (s : gmap positive DllInfo) :
  undot lib <> "toth" ->
  dyn_load policy lib init_cpp h s =
    {| invoked := []; after := Done (<[h := mapped init_cpp]> s) |}.
Proof.
  intros Hlib. unfold dyn_load.
  assert (Hnone : find_hook init_cpp (load_hook_name lib) = None).
  { unfold load_hook_name, init_cpp, find_hook.
    cbn [sym_name sym_linkage sym_def].
    rewrite (bool_decide_eq_false_2 (_ /\ internal = external))
      by (intros [_ Hl]; discriminate Hl).
    rewrite bool_decide_eq_false_2; [reflexivity |].
    intros [Hn _]. apply Hlib. simpl in Hn. injection Hn as Hn. by symmetry. }
  rewrite Hnone. reflexivity.
Qed.

Example hook_not_found_for_thoth :
  invoked (dyn_load reference_policy "thoth" init_cpp 1%positive ∅) = [].
Proof. rewrite dyn_load_other_name; [reflexivity | discriminate]. Qed.

(** ** The hook's name and the library's name *)









(* ================================================================== *)
(** * Further properties of the hook *)
(* ================================================================== *)

(** ** Sequencing and the discarded results *)

Lemma exec_bind {S A B : Type}
    (hc : forall X : Type, HostCall X -> S -> outcome (X * S))
    (p : Native A) (f : A -> Native B) (s : S) :
  exec hc (p ≫= f) s =
    match exec hc p s with
    | Done (a, s') => exec hc (f a) s'
    | Failed e => Failed e
    end.
Proof.
  revert s. induction p as [a | X c k IH]; intros s.
  - reflexivity.
  - change (exec hc (Invoke c (fun x => k x ≫= f)) s = 
            match exec hc (Invoke c k) s with
            | Done (a, s') => exec hc (f a) s'
            | Failed e => Failed e
            end).
    simpl. destruct (hc X c s) as [[x s'] | e]; [apply IH | reflexivity].
Qed.

Lemma exec_log_outcome {S A : Type}
    (hc : forall X : Type, HostCall X -> S -> outcome (X * S))
    (p : Native A) (s : S) :
  snd (exec_log hc p s) = exec hc p s.
Proof.
  revert s. induction p as [a | X c k IH]; intros s; simpl; [reflexivity |].
  destruct (hc X c s) as [[x s'] | e]; [| reflexivity].
  specialize (IH x s'). destruct (exec_log hc (k x) s') as [l r]. exact IH.
Qed.

(** X1: against any host, when the registration call returns (with whatever
    status) and the lookup-policy call then returns (with whatever previous
    flag), the hook returns and leaves the host in the state the
    lookup-policy call produced: neither result is looked at, so a
    registration the host answers with a failure status does not keep the
    hook from switching dynamic lookup off. *)
Theorem hook_discards_results {S : Type}
    (hc : forall X : Type, HostCall X -> S -> outcome (X * S))
    (dll : DllInfo_ptr) (s s1 s2 : S) (status : Z) (old : bool)
    (Hreg : hc Z (R_registerRoutines dll None (Some CallEntries) None None) s
            = Done (status, s1))
    (Hdyn : hc bool (R_useDynamicSymbols dll false) s1 = Done (old, s2)) :
  exec_log hc (R_init_toth dll) s =
    ( [ Issued fn_registerRoutines
          [ArgDll dll; ArgNull; ArgCallTable CallEntries; ArgNull; ArgNull];
        Issued fn_useDynamicSymbols [ArgDll dll; ArgBool false] ],
      Done (tt, s2) ) /\
  exec hc (R_init_toth dll) s = Done (tt, s2).
Proof.
  assert (Hlog : exec_log hc (R_init_toth dll) s =
    ( [ Issued fn_registerRoutines
          [ArgDll dll; ArgNull; ArgCallTable CallEntries; ArgNull; ArgNull];
        Issued fn_useDynamicSymbols [ArgDll dll; ArgBool false] ],
      Done (tt, s2) )).
  { unfold R_init_toth, call. simpl. rewrite Hreg. simpl. rewrite Hdyn. reflexivity. }
  split; [exact Hlog |].
  rewrite <- exec_log_outcome, Hlog. reflexivity.
Qed.

Lemma hook_discards_results_witness :
  exec_log refusing_host (R_init_toth (Some 1%positive)) [] =
    ( [ Issued fn_registerRoutines
          [ArgDll (Some 1%positive); ArgNull; ArgCallTable CallEntries; ArgNull; ArgNull];
        Issued fn_useDynamicSymbols [ArgDll (Some 1%positive); ArgBool false] ],
      Done (tt, [false]) ) /\
  exec refusing_host (R_init_toth (Some 1%positive)) [] = Done (tt, [false]).
Proof.
  apply (hook_discards_results refusing_host (Some 1%positive) [] [] [false] 0 true);
    reflexivity.
Defined.

(** X2: against any host, when the registration call fails the hook ends with
    that failure after this one call: the lookup-policy call is never issued,
    so dynamic lookup is not switched off. *)
Theorem registration_failure_ends_hook {S : Type}
    (hc : forall X : Type, HostCall X -> S -> outcome (X * S))
    (dll : DllInfo_ptr) (s : S) (e : failure)
    (Hreg : hc Z (R_registerRoutines dll None (Some CallEntries) None None) s = Failed e) :
  exec_log hc (R_init_toth dll) s =
    ( [ Issued fn_registerRoutines
          [ArgDll dll; ArgNull; ArgCallTable CallEntries; ArgNull; ArgNull] ],
      Failed e ) /\
  Forall (fun c => target c <> fn_useDynamicSymbols)
    (fst (exec_log hc (R_init_toth dll) s)).
Proof.
  assert (Hlog : exec_log hc (R_init_toth dll) s =
    ( [ Issued fn_registerRoutines
          [ArgDll dll; ArgNull; ArgCallTable CallEntries; ArgNull; ArgNull] ],
      Failed e )).
  { unfold R_init_toth, call. simpl. rewrite Hreg. reflexivity. }
  split; [exact Hlog |].
  rewrite Hlog. simpl. repeat constructor. discriminate.
Qed.

Lemma registration_failure_ends_hook_witness :
  exec_log (@host_call reference_policy) (R_init_toth None) {[1%positive := busy]} =
    ( [ Issued fn_registerRoutines
          [ArgDll None; ArgNull; ArgCallTable CallEntries; ArgNull; ArgNull] ],
      Failed invalid_DllInfo ) /\
  Forall (fun c => target c <> fn_useDynamicSymbols)
    (fst (exec_log (@host_call reference_policy) (R_init_toth None) {[1%positive := busy]})).
Proof.
  apply (registration_failure_ends_hook (@host_call reference_policy) None
           {[1%positive := busy]} invalid_DllInfo).
  reflexivity.
Defined.

(** ** Invoking the hook again *)

Lemma settled_settled (d : DllInfo) (ds ds' : list R_CallMethodDef) :
  settled (settled d ds) ds' = settled d ds'.
Proof. reflexivity. Qed.

Lemma run_R_init_toth_invalid (policy : bool -> bool) (dll : DllInfo_ptr)
    (s : gmap positive DllInfo) (e : failure) :
  deref dll s = Failed e -> run policy (R_init_toth dll) s = Failed e.
Proof.
  intros Hbad. unfold run, R_init_toth, call. simpl.
  unfold host_registerRoutines. rewrite Hbad. reflexivity.
Qed.

(** X3: against the modelled host the hook is idempotent: for every handle and
    every host state, invoking it twice in a row ends exactly as invoking it
    once does, in the same state when the handle denotes a loaded library and
    with the same failure when it does not. *)
Theorem hook_idempotent (policy : bool -> bool) (dll : DllInfo_ptr)
    (s : gmap positive DllInfo) :
  run policy (R_init_toth dll ;; R_init_toth dll) s = run policy (R_init_toth dll) s.
Proof.
  unfold run at 1. rewrite exec_bind. fold (run policy (R_init_toth dll) s).
  destruct (deref dll s) as [[h d] | e] eqn:Hd.
  - assert (dll = Some h /\ s !! h = Some d) as [-> Hs].
    { unfold deref in Hd. destruct dll as [h0 |]; [| discriminate Hd].
      destruct (s !! h0) as [d0 |] eqn:Hs0; [| discriminate Hd].
      injection Hd as -> ->. by split. }
    rewrite (run_R_init_toth policy s h d Hs).
    fold (run policy (R_init_toth (Some h)) (<[h := settled d []]> s)).
    rewrite (run_R_init_toth policy _ h (settled d [])) by apply lookup_insert_eq.
    rewrite insert_insert_eq, settled_settled. reflexivity.
  - rewrite (run_R_init_toth_invalid policy dll s e Hd). reflexivity.
Qed.

(** ** What a run changes in the host *)

(** X5: against the modelled host, a run of the hook on a loaded library
    changes that library's record and nothing else: every other library is
    as before, no library appears or disappears, and in the record itself the
    [.C], [.Fortran] and [.External] tables and the linker symbols are as
    before; the [.Call] table is left empty and the lookup flag off. *)
Theorem hook_changes_only_its_library (policy : bool -> bool)
    (s : gmap positive DllInfo) (h : positive) (d : DllInfo)
    (Hvalid : s !! h = Some d) :
  exists (s' : gmap positive DllInfo) (d' : DllInfo),
    run policy (R_init_toth (Some h)) s = Done (tt, s') /\
    s' !! h = Some d' /\
    (forall h' : positive, h' <> h -> s' !! h' = s !! h') /\
    dom s' = dom s /\
    CSymbols d' = CSymbols d /\
    FortranSymbols d' = FortranSymbols d /\
    ExternalSymbols d' = ExternalSymbols d /\
    dl_symbols d' = dl_symbols d /\
    CallSymbols d' = [] /\
    useDynamicSymbols d' = false.
Proof.
  exists (<[h := settled d []]> s), (settled d []).
  split; [by apply run_R_init_toth |].
  split; [apply lookup_insert_eq |].
  split; [intros h' Hne; by apply lookup_insert_ne |].
  split; [| repeat split].
  rewrite dom_insert_L. apply subseteq_union_1_L, singleton_subseteq_l.
  by apply elem_of_dom_2 in Hvalid.
Qed.

Lemma hook_changes_only_its_library_witness :
  exists (s' : gmap positive DllInfo) (d' : DllInfo),
    run reference_policy (R_init_toth (Some 1%positive))
      {[1%positive := busy; 2%positive := busy]} = Done (tt, s') /\
    s' !! 1%positive = Some d' /\
    (forall h' : positive, h' <> 1%positive ->
       s' !! h' = ({[1%positive := busy; 2%positive := busy]} : gmap positive DllInfo) !! h') /\
    dom s' = dom ({[1%positive := busy; 2%positive := busy]} : gmap positive DllInfo) /\
    CSymbols d' = CSymbols busy /\
    FortranSymbols d' = FortranSymbols busy /\
    ExternalSymbols d' = ExternalSymbols busy /\
    dl_symbols d' = dl_symbols busy /\
    CallSymbols d' = [] /\
    useDynamicSymbols d' = false.
Proof.
  apply (hook_changes_only_its_library reference_policy
           {[1%positive := busy; 2%positive := busy]} 1%positive busy).
  reflexivity.
Defined.

(** ** Any number of invocations *)


